(** * rev_comp: validation and reverse complement of DNA sequences

    A shallow embedding of [rev_comp.py].  Python values that reach the
    three public functions are dynamically typed, so arguments are
    modelled by [pyvalue]; exceptions are modelled by an error monad
    [result] whose failures carry the raised exception. *)

From Stdlib Require Import ZArith Ascii String DecimalString.
From Stdlib Require DecimalPos DecimalZ.
From stdpp Require Import base option list strings gmap.

Local Open Scope Z_scope.

(** ** Exceptions *)

Module Exn.

(** Classes: Python's root class [object], the built-in exception classes
    the code can raise, and the two classes the module declares ([Error]
    and [DnaSequenceError]). *)
Inductive pyclass : Type :=
  | object
  | BaseException
  | Exception
  | ValueError
  | TypeError
  | AttributeError
  | LookupError
  | KeyError
  | Error
  | DnaSequenceError.

Global Instance pyclass_eq_dec : EqDecision pyclass.
Proof. solve_decision. Defined.

(** The class named in the parentheses of each [class] statement;
    for the built-in classes, the base the Python library gives them. *)
Definition base_class (c : pyclass) : option pyclass :=
  match c with
  | object => None
  | BaseException => Some object
  | Exception => Some BaseException
  | ValueError => Some Exception
  | TypeError => Some Exception
  | AttributeError => Some Exception
  | LookupError => Some Exception
  | KeyError => Some LookupError
  | Error => Some Exception
  | DnaSequenceError => Some Error
  end.

(** [subclass c d]: [c] is [d] or derives from it. *)
Inductive subclass : pyclass → pyclass → Prop :=
  | subclass_refl c : subclass c c
  | subclass_step c p d : base_class c = Some p → subclass p d → subclass c d.

Fixpoint issubclass_fuel (fuel : nat) (c d : pyclass) : bool :=
  if decide (c = d) then true
  else match fuel, base_class c with
       | S fuel', Some p => issubclass_fuel fuel' p d
       | _, _ => false
       end.

(** No chain of bases is longer than four steps. *)
Definition issubclass (c d : pyclass) : bool := issubclass_fuel 4 c d.

(** A raised exception.  The exceptions of the module's own [raise]
    statements carry their message; the ones the interpreter raises
    are kept by class (and key, for a failed dict lookup). *)
Inductive exn : Type :=
  | RaiseValueError (message : string)
  | RaiseDnaSequenceError (message : string)
  | RaiseTypeError
  | RaiseAttributeError
  | RaiseKeyError (key : string).

Definition class_of (e : exn) : pyclass :=
  match e with
  | RaiseValueError _ => ValueError
  | RaiseDnaSequenceError _ => DnaSequenceError
  | RaiseTypeError => TypeError
  | RaiseAttributeError => AttributeError
  | RaiseKeyError _ => KeyError
  end.

End Exn.

Import Exn.

(** ** The error monad *)

Inductive result (A : Type) : Type :=
  | Return (a : A)
  | Raise (e : exn).
Arguments Return {A} a.
Arguments Raise {A} e.

Definition bind {A B : Type} (m : result A) (k : A → result B) : result B :=
  match m with
  | Return a => k a
  | Raise e => Raise e
  end.

Notation "'let*' x ':=' m 'in' k" := (bind m (fun x => k))
  (at level 10, x pattern, m at level 100, k at level 200).

(** Runs [f] over a list from left to right and stops at the first failure. *)
Fixpoint mapM {A B : Type} (f : A → result B) (l : list A) : result (list B) :=
  match l with
  | [] => Return []
  | a :: rest =>
      let* b := f a in
      let* bs := mapM f rest in
      Return (b :: bs)
  end.

(** ** Python values and the built-in operations the module uses *)

#[warning="-register-all"]
Inductive pyvalue : Type :=
  | PyNone
  | PyBool (b : bool)
  | PyInt (z : Z)
  | PyStr (s : string)
  | PyList (items : list pyvalue).

(** [type(v).__name__] *)
Definition type_name (v : pyvalue) : string :=
  match v with
  | PyNone => "NoneType"
  | PyBool _ => "bool"
  | PyInt _ => "int"
  | PyStr _ => "str"
  | PyList _ => "list"
  end.

(** [v == s] for a string literal [s]: only an equal string compares equal. *)
Definition py_eq_str (v : pyvalue) (s : string) : bool :=
  match v with
  | PyStr t => String.eqb t s
  | _ => false
  end.

(** [str(z)] for an integer. *)
Definition py_str_of_int (z : Z) : string := NilZero.string_of_int (Z.to_int z).

(** [c.upper()] on one character.  Strings are modelled as sequences of
    8-bit characters (code points 0 to 255): the letters a to z move to A
    to Z and every other character stays.  Above 127 Python moves some
    characters to other characters above 127 (or to SS), never to one of
    A, G, C, T, and the module calls [upper] only to test membership among
    those four and on characters that passed the test. *)
Definition upper_char (c : ascii) : ascii :=
  let n := N_of_ascii c in
  if ((97 <=? n) && (n <=? 122))%N then ascii_of_N (n - 32) else c.

Fixpoint string_map (f : ascii → ascii) (s : string) : string :=
  match s with
  | EmptyString => EmptyString
  | String c rest => String (f c) (string_map f rest)
  end.

(** [s.upper()] *)
Definition upper (s : string) : string := string_map upper_char s.

(** The items a [for] loop over a string sees: its one-character strings. *)
Fixpoint chars (s : string) : list string :=
  match s with
  | EmptyString => []
  | String c rest => String c EmptyString :: chars rest
  end.

(** [iter(v)]: strings and lists are iterable, the other values are not. *)
Definition py_iter (v : pyvalue) : result (list pyvalue) :=
  match v with
  | PyStr s => Return (PyStr <$> chars s)
  | PyList items => Return items
  | _ => Raise RaiseTypeError
  end.

(** [v[::-1]] *)
Definition py_reversed_slice (v : pyvalue) : result pyvalue :=
  match v with
  | PyStr s => Return (PyStr (String.rev s))
  | PyList items => Return (PyList (reverse items))
  | _ => Raise RaiseTypeError
  end.

(** [v.upper()]: of the values modelled, only strings have the method. *)
Definition py_upper (v : pyvalue) : result string :=
  match v with
  | PyStr s => Return (upper s)
  | _ => Raise RaiseAttributeError
  end.

(** [s + v] with a string on the left. *)
Definition py_str_add (s : string) (v : pyvalue) : result string :=
  match v with
  | PyStr t => Return (s +:+ t)
  | _ => Raise RaiseTypeError
  end.

(** [dict(pairs)]: pairs are inserted in order, a later key replaces an
    earlier one. *)
Definition py_dict (pairs : list (string * string)) : gmap string string :=
  foldl (fun d kv => <[kv.1 := kv.2]> d) ∅ pairs.

(** ** The module *)

(** What [get_valid_bases] returns: a list of bases or a dict from base to
    complement. *)
Inductive bases : Type :=
  | BasesList (l : list string)
  | BasesDict (d : gmap string string).

(** [x in b] *)
Definition py_in (x : string) (b : bases) : bool :=
  match b with
  | BasesList l => existsb (String.eqb x) l
  | BasesDict d => bool_decide (is_Some (d !! x))
  end.

(** [b[key]] *)
Definition py_getitem (b : bases) (key : string) : result string :=
  match b with
  | BasesList _ => Raise RaiseTypeError
  | BasesDict d =>
      match d !! key with
      | Some v => Return v
      | None => Raise (RaiseKeyError key)
      end
  end.

(** [get_valid_bases(return_values="bases_only")]; [None] is the call
    without an argument. *)
Definition get_valid_bases (arg : option pyvalue) : result bases :=
  let return_values := default (PyStr "bases_only") arg in
  let valid_bases := ["A"; "G"; "C"; "T"] in
  if py_eq_str return_values "bases_only" then
    Return (BasesList valid_bases)
  else if py_eq_str return_values "base_complements" then
    Return (BasesDict (py_dict (zip valid_bases (reverse valid_bases))))
  else
    Raise (RaiseValueError ("return_values must be either 'bases_only' or " +:+
                            "'base_complements'")).

Definition _validate_base (base : pyvalue) (position : Z) : result unit :=
  let* upper_base := py_upper base in
  let* valid := get_valid_bases None in
  if negb (py_in upper_base valid) then
    let* text := py_str_add "invalid base '" base in
    Raise (RaiseDnaSequenceError
             (((text +:+ "' found at ") +:+ "sequence position ") +:+
              py_str_of_int position))
  else Return tt.

Definition _validate_type (dna_sequence : pyvalue) : result unit :=
  let sequence_type := type_name dna_sequence in
  if negb (String.eqb sequence_type "str") then
    Raise (RaiseDnaSequenceError
             (("invalid sequence type (" +:+ sequence_type) +:+ ")"))
  else Return tt.

(** The body of the [for] loop, with the counter as it is before the
    iteration. *)
Fixpoint validate_loop (items : list pyvalue) (position : Z) : result unit :=
  match items with
  | [] => Return tt
  | base :: rest =>
      let position := position + 1 in
      let* _ := _validate_base base position in
      validate_loop rest position
  end.

Definition validate_dna_sequence (dna_sequence : pyvalue) : result unit :=
  let* _ := _validate_type dna_sequence in
  let position := 0 in
  let* items := py_iter dna_sequence in
  validate_loop items position.

Definition get_reverse_complement (dna_sequence : pyvalue) : result string :=
  let* complements := get_valid_bases (Some (PyStr "base_complements")) in
  let* _ := validate_dna_sequence dna_sequence in
  let* reversed := py_reversed_slice dna_sequence in
  let* items := py_iter reversed in
  let* parts :=
    mapM (λ base, let* key := py_upper base in py_getitem complements key)
         items in
  Return (String.concat "" parts).

(** ** Vocabulary of the specification *)

(** A base, in either case. *)
Definition is_base (c : ascii) : bool :=
  match c with
  | "A" | "G" | "C" | "T" | "a" | "g" | "c" | "t" => true
  | _ => false
  end%char.

Fixpoint string_forall (p : ascii → bool) (s : string) : bool :=
  match s with
  | EmptyString => true
  | String c rest => p c && string_forall p rest
  end.

(** A valid sequence: every character is, in either case, one of A, G, C, T. *)
Definition valid_sequence (s : string) : bool := string_forall is_base s.

(** An input is valid when it is a string that is a valid sequence. *)
Definition valid_input (v : pyvalue) : bool :=
  match v with
  | PyStr s => valid_sequence s
  | _ => false
  end.

(** Watson-Crick pairing of the upper-case bases. *)
Definition complement (c : ascii) : ascii :=
  match c with
  | "A" => "T"
  | "T" => "A"
  | "G" => "C"
  | "C" => "G"
  | _ => c
  end%char.

(** Reverse, upper-case each character, complement each base. *)
Definition reverse_complement (s : string) : string :=
  string_map complement (upper (String.rev s)).

(** The failure for a value whose type has the given name. *)
Definition type_error (name : string) : exn :=
  RaiseDnaSequenceError ("invalid sequence type (" +:+ name +:+ ")").

(** The failure for the character [c] found at the 1-based [position]. *)
Definition base_error (c : ascii) (position : Z) : exn :=
  RaiseDnaSequenceError
    ("invalid base '" +:+ String c "' found at sequence position " +:+
     py_str_of_int position).

(** Left-to-right scan for the first character that is no base; [position]
    is the 1-based position of the head of [s]. *)
Fixpoint first_invalid (s : string) (position : Z) : option (ascii * Z) :=
  match s with
  | EmptyString => None
  | String c rest =>
      if is_base c then first_invalid rest (position + 1) else Some (c, position)
  end.

(** What validation of a string yields, from the scan. *)
Definition validation_outcome (s : string) : result unit :=
  match first_invalid s 1 with
  | None => Return tt
  | Some (c, i) => Raise (base_error c i)
  end.

(** A one-character string whose character is a base, in either case. *)
Definition single_base (s : string) : bool :=
  match s with
  | String c EmptyString => is_base c
  | _ => false
  end.

(** Number of characters of [s] that satisfy [p]. *)
Fixpoint string_count (p : ascii → bool) (s : string) : nat :=
  match s with
  | EmptyString => 0%nat
  | String c rest => ((if p c then 1 else 0) + string_count p rest)%nat
  end.

(** Number of occurrences of the upper-case base [b] in [s], in either case. *)
Definition base_count (b : ascii) (s : string) : nat :=
  string_count (λ c, Ascii.eqb (upper_char c) b) s.

(** ** Facts about characters *)

Ltac by_cases_on_char c :=
  destruct c as [[] [] [] [] [] [] [] []]; try discriminate; try reflexivity.

(** The membership test of [_validate_base] decides [is_base]. *)
Lemma py_in_upper_char (c : ascii) :
  py_in (upper (String c "")) (BasesList ["A"; "G"; "C"; "T"]) = is_base c.
Proof. by_cases_on_char c. Qed.

Lemma _validate_base_char (c : ascii) (position : Z) :
  _validate_base (PyStr (String c "")) position =
  if is_base c then Return tt else Raise (base_error c position).
Proof.
  unfold _validate_base, py_upper, get_valid_bases, bind. cbn [default py_eq_str].
  change (String.eqb "bases_only" "bases_only") with true. cbv iota.
  rewrite py_in_upper_char. destruct (is_base c); reflexivity.
Qed.

Lemma complement_lookup (complements : bases) (c : ascii) :
  get_valid_bases (Some (PyStr "base_complements")) = Return complements →
  is_base c = true →
  py_getitem complements (upper (String c "")) =
  Return (String (complement (upper_char c)) "").
Proof. intros [= <-]. by_cases_on_char c. Qed.

Lemma complement_upper_twice (c : ascii) :
  is_base c = true →
  complement (upper_char (complement (upper_char c))) = upper_char c.
Proof. by_cases_on_char c. Qed.

Lemma is_base_complement_upper (c : ascii) :
  is_base c = true → is_base (complement (upper_char c)) = true.
Proof. by_cases_on_char c. Qed.

Lemma complement_upper_in_valid_bases (c : ascii) :
  is_base c = true →
  String (complement (upper_char c)) "" ∈ ["A"; "G"; "C"; "T"].
Proof.
  intros H. apply list_elem_of_In. revert H.
  by_cases_on_char c; intros _; cbn; tauto.
Qed.

(** ** Facts about strings *)

Section StringFacts.

Implicit Types (s t u : string) (f g : ascii → ascii) (p : ascii → bool).

Lemma app_cons c s t : String c s +:+ t = String c (s +:+ t).
Proof. reflexivity. Qed.

Lemma app_empty_r s : s +:+ "" = s.
Proof. induction s as [|c s IH]; [reflexivity|]. by rewrite app_cons, IH. Qed.

Lemma rev_app_rev_app s t u :
  String.rev_app (String.rev_app s t) u = String.rev_app t (s +:+ u).
Proof.
  revert t u. induction s as [|c s IH]; intros t u; [reflexivity|].
  rewrite app_cons. cbn. by rewrite IH.
Qed.

Lemma rev_involutive s : String.rev (String.rev s) = s.
Proof. unfold String.rev. by rewrite rev_app_rev_app, app_empty_r. Qed.

Lemma string_map_rev_app f s t :
  string_map f (String.rev_app s t) =
  String.rev_app (string_map f s) (string_map f t).
Proof. revert t. induction s as [|c s IH]; intros t; [reflexivity|]. cbn. by rewrite IH. Qed.

Lemma string_map_rev f s : string_map f (String.rev s) = String.rev (string_map f s).
Proof. apply string_map_rev_app. Qed.

Lemma string_map_compose f g s :
  string_map f (string_map g s) = string_map (λ c, f (g c)) s.
Proof. induction s as [|c s IH]; cbn; [reflexivity | by rewrite IH]. Qed.

Lemma string_map_ext_forall p f g s :
  (∀ c, p c = true → f c = g c) →
  string_forall p s = true → string_map f s = string_map g s.
Proof.
  intros Hfg. induction s as [|c s IH]; cbn; [reflexivity|].
  intros [Hc Hs]%andb_prop. by rewrite (Hfg c Hc), IH.
Qed.

Lemma string_forall_map p q f s :
  (∀ c, p c = true → q (f c) = true) →
  string_forall p s = true → string_forall q (string_map f s) = true.
Proof.
  intros Hf. induction s as [|c s IH]; cbn; [reflexivity|].
  intros [Hc Hs]%andb_prop. by rewrite (Hf c Hc), IH.
Qed.

Lemma string_forall_rev_app p s t :
  string_forall p (String.rev_app s t) = string_forall p s && string_forall p t.
Proof.
  revert t. induction s as [|c s IH]; intros t; [reflexivity|].
  cbn. rewrite IH. cbn. destruct (p c), (string_forall p s); reflexivity.
Qed.

Lemma string_forall_rev p s : string_forall p (String.rev s) = string_forall p s.
Proof. unfold String.rev. rewrite string_forall_rev_app. cbn. apply andb_true_r. Qed.

Lemma length_string_map f s : String.length (string_map f s) = String.length s.
Proof. induction s as [|c s IH]; cbn; [reflexivity | by rewrite IH]. Qed.

Lemma length_rev_app s t :
  String.length (String.rev_app s t) = (String.length s + String.length t)%nat.
Proof.
  revert t. induction s as [|c s IH]; intros t; [reflexivity|].
  cbn. rewrite IH. cbn. lia.
Qed.

Lemma length_rev s : String.length (String.rev s) = String.length s.
Proof. unfold String.rev. rewrite length_rev_app. cbn. lia. Qed.

(** Joining the one-character strings of [s] with the empty separator
    gives [s] back. *)
Lemma concat_chars s : String.concat "" (chars s) = s.
Proof.
  induction s as [|c s IH]; [reflexivity|].
  destruct s as [|d s]; [reflexivity|].
  rewrite <- IH at 2. reflexivity.
Qed.

End StringFacts.

(** ** The scan for the first invalid base *)

Lemma first_invalid_None (s : string) (position : Z) :
  first_invalid s position = None ↔ valid_sequence s = true.
Proof.
  unfold valid_sequence. revert position.
  induction s as [|c s IH]; intros position; cbn [first_invalid string_forall]; [done|].
  destruct (is_base c); cbn [andb]; [apply IH | split; discriminate].
Qed.

Lemma first_invalid_app (pre post : string) (c : ascii) (position : Z) :
  valid_sequence pre = true →
  is_base c = false →
  first_invalid (pre +:+ String c post) position =
  Some (c, position + Z.of_nat (String.length pre)).
Proof.
  intros Hpre Hc. revert position Hpre.
  induction pre as [|b pre IH]; intros position Hpre.
  - change ("" +:+ String c post) with (String c post).
    cbn [first_invalid String.length]. rewrite Hc. do 2 f_equal. lia.
  - cbn [valid_sequence string_forall] in Hpre. unfold valid_sequence in Hpre.
    cbn [string_forall] in Hpre. apply andb_prop in Hpre as [Hb Hpre].
    rewrite app_cons. cbn [first_invalid]. rewrite Hb, IH by done.
    do 2 f_equal. cbn [String.length]. lia.
Qed.

(** ** The functions, one by one *)

Lemma validate_loop_chars (s : string) (position : Z) :
  validate_loop (PyStr <$> chars s) position =
  match first_invalid s (position + 1) with
  | None => Return tt
  | Some (c, i) => Raise (base_error c i)
  end.
Proof.
  revert position. induction s as [|c s IH]; intros position; [reflexivity|].
  cbn [chars fmap list_fmap validate_loop first_invalid].
  rewrite _validate_base_char.
  destruct (is_base c); cbn [bind]; [apply IH | reflexivity].
Qed.

Lemma validate_dna_sequence_str (s : string) :
  validate_dna_sequence (PyStr s) = validation_outcome s.
Proof. apply (validate_loop_chars s 0). Qed.

Lemma validate_dna_sequence_not_str (v : pyvalue) :
  type_name v ≠ "str" →
  validate_dna_sequence v = Raise (type_error (type_name v)).
Proof. destruct v; intros H; try reflexivity. by destruct H. Qed.

Lemma validate_dna_sequence_valid (s : string) :
  validate_dna_sequence (PyStr s) = Return tt ↔ valid_sequence s = true.
Proof.
  rewrite validate_dna_sequence_str. unfold validation_outcome.
  rewrite <- (first_invalid_None s 1).
  destruct (first_invalid s 1) as [[c i]|]; split; (done || discriminate).
Qed.

Lemma validate_dna_sequence_invalid (pre post : string) (c : ascii) :
  valid_sequence pre = true →
  is_base c = false →
  validate_dna_sequence (PyStr (pre +:+ String c post)) =
  Raise (base_error c (Z.of_nat (String.length pre) + 1)).
Proof.
  intros Hpre Hc. rewrite validate_dna_sequence_str. unfold validation_outcome.
  rewrite (first_invalid_app pre post c 1 Hpre Hc).
  by rewrite Z.add_comm.
Qed.

(** The generator of [get_reverse_complement] over an already reversed,
    valid string. *)
Lemma complement_each (complements : bases) (t : string) :
  get_valid_bases (Some (PyStr "base_complements")) = Return complements →
  valid_sequence t = true →
  mapM (λ base, let* key := py_upper base in py_getitem complements key)
       (PyStr <$> chars t) =
  Return (chars (string_map complement (upper t))).
Proof.
  intros Hc. unfold valid_sequence.
  induction t as [|c t IH]; [reflexivity|].
  cbn [string_forall].
  intros [Hb Ht]%andb_prop.
  cbn [chars fmap list_fmap mapM py_upper]. unfold bind at 2.
  rewrite (complement_lookup complements c Hc Hb). cbn [bind].
  rewrite (IH Ht). reflexivity.
Qed.

Lemma get_reverse_complement_raise (v : pyvalue) (e : exn) :
  validate_dna_sequence v = Raise e → get_reverse_complement v = Raise e.
Proof.
  intros H. unfold get_reverse_complement.
  destruct (get_valid_bases _) as [complements|] eqn:E; [|discriminate E].
  cbn [bind]. by rewrite H.
Qed.

Lemma get_reverse_complement_valid (s : string) :
  valid_sequence s = true →
  get_reverse_complement (PyStr s) = Return (reverse_complement s).
Proof.
  intros H. unfold get_reverse_complement.
  destruct (get_valid_bases _) as [complements|] eqn:E; [|discriminate E].
  cbn [bind]. rewrite (proj2 (validate_dna_sequence_valid s) H).
  cbn [bind py_reversed_slice py_iter].
  rewrite (complement_each complements (String.rev s) E).
  - cbn [bind]. by rewrite concat_chars.
  - unfold valid_sequence. by rewrite string_forall_rev.
Qed.

Lemma validate_dna_sequence_return (v : pyvalue) :
  validate_dna_sequence v = Return tt ↔ valid_input v = true.
Proof.
  destruct v; try (split; discriminate).
  apply validate_dna_sequence_valid.
Qed.

Lemma validate_dna_sequence_total (v : pyvalue) :
  validate_dna_sequence v = Return tt ∨
  ∃ message, validate_dna_sequence v = Raise (RaiseDnaSequenceError message).
Proof.
  destruct v; try (right; eexists; reflexivity).
  rewrite validate_dna_sequence_str. unfold validation_outcome.
  destruct (first_invalid s 1) as [[c i]|]; [right | by left].
  eexists. reflexivity.
Qed.

Lemma reverse_complement_valid (s : string) :
  valid_sequence s = true → valid_sequence (reverse_complement s) = true.
Proof.
  intros H. unfold reverse_complement, upper, valid_sequence.
  rewrite string_map_compose.
  apply (string_forall_map is_base); [apply is_base_complement_upper|].
  by rewrite string_forall_rev.
Qed.

Lemma reverse_complement_twice (s : string) :
  valid_sequence s = true →
  reverse_complement (reverse_complement s) = upper s.
Proof.
  intros H. unfold reverse_complement, upper.
  rewrite !string_map_rev, rev_involutive, !string_map_compose.
  apply (string_map_ext_forall is_base); [|done].
  intros c Hc. by apply complement_upper_twice.
Qed.

(** ** The class hierarchy *)

Lemma subclass_issubclass (c d : pyclass) : subclass c d → issubclass c d = true.
Proof.
  induction 1 as [c|c p d Hbase _ IH]; [by destruct c|].
  destruct c; cbn in Hbase; try discriminate Hbase; injection Hbase as <-;
    destruct d; (discriminate IH || reflexivity).
Qed.

Lemma issubclass_subclass (c d : pyclass) : issubclass c d = true → subclass c d.
Proof.
  destruct c, d; try discriminate; intros _;
    repeat (first [apply subclass_refl | eapply subclass_step; [reflexivity|]]).
Qed.

(** ** Properties of the module *)

(** C1. For every string whose characters are all, in either case, among
    A, G, C and T, [get_reverse_complement] returns the input reversed,
    upper-cased and complemented base by base (A with T, G with C); so
    AGCT gives AGCT, AAAA gives TTTT and GGCC gives GGCC. *)
Theorem get_reverse_complement_correct :
  (∀ s : string,
     valid_sequence s = true →
     get_reverse_complement (PyStr s) = Return (reverse_complement s)) ∧
  get_reverse_complement (PyStr "AGCT") = Return "AGCT" ∧
  get_reverse_complement (PyStr "AAAA") = Return "TTTT" ∧
  get_reverse_complement (PyStr "GGCC") = Return "GGCC".
Proof.
  split; [exact get_reverse_complement_valid|].
  repeat split; reflexivity.
Qed.

Lemma get_reverse_complement_correct_witness :
  valid_sequence "gAttaCa" = true ∧
  get_reverse_complement (PyStr "gAttaCa") = Return "TGTAATC".
Proof.
  split; [reflexivity|].
  exact (proj1 get_reverse_complement_correct "gAttaCa" eq_refl).
Defined.

(** C2. [validate_dna_sequence] checks the type first: a value that is no
    string fails with the type failure that names its type (int for 1234),
    whatever it contains.  A string is scanned from the left with a counter
    that starts at 1, and the first character that is no base fails the call
    with that character, as written, and its 1-based position; what follows
    it is not reported.  The call returns (nothing) exactly when every
    character is a base. *)
Theorem validate_dna_sequence_correct :
  (∀ v : pyvalue,
     type_name v ≠ "str" →
     validate_dna_sequence v = Raise (type_error (type_name v))) ∧
  validate_dna_sequence (PyInt 1234) =
    Raise (RaiseDnaSequenceError "invalid sequence type (int)") ∧
  validate_dna_sequence (PyList [PyStr "2"; PyStr "U"]) =
    Raise (RaiseDnaSequenceError "invalid sequence type (list)") ∧
  (∀ (pre post : string) (c : ascii),
     valid_sequence pre = true →
     is_base c = false →
     validate_dna_sequence (PyStr (pre +:+ String c post)) =
     Raise (base_error c (Z.of_nat (String.length pre) + 1))) ∧
  validate_dna_sequence (PyStr "2GCT") =
    Raise (RaiseDnaSequenceError "invalid base '2' found at sequence position 1") ∧
  validate_dna_sequence (PyStr "AGCU") =
    Raise (RaiseDnaSequenceError "invalid base 'U' found at sequence position 4") ∧
  validate_dna_sequence (PyStr "agxCu2") =
    Raise (RaiseDnaSequenceError "invalid base 'x' found at sequence position 3") ∧
  (∀ s : string,
     validate_dna_sequence (PyStr s) = Return tt ↔ valid_sequence s = true).
Proof.
  split; [exact validate_dna_sequence_not_str|].
  do 2 (split; [reflexivity|]).
  split; [exact validate_dna_sequence_invalid|].
  do 3 (split; [reflexivity|]).
  exact validate_dna_sequence_valid.
Qed.

Lemma validate_dna_sequence_correct_witness :
  validate_dna_sequence (PyBool true) =
    Raise (RaiseDnaSequenceError "invalid sequence type (bool)") ∧
  validate_dna_sequence (PyStr "acgTn?") =
    Raise (RaiseDnaSequenceError "invalid base 'n' found at sequence position 5") ∧
  validate_dna_sequence (PyStr "tacG") = Return tt.
Proof.
  destruct validate_dna_sequence_correct
    as (Htype & _ & _ & Hbase & _ & _ & _ & Hvalid).
  split; [|split].
  - apply (Htype (PyBool true)). discriminate.
  - exact (Hbase "acgT" "?" "n"%char eq_refl eq_refl).
  - apply (proj2 (Hvalid "tacG")). reflexivity.
Defined.

(** C3. With the selector bases_only, [get_valid_bases] returns the list
    A, G, C, T; with base_complements it returns the dict that sends A to T,
    G to C, C to G and T to A: four entries, each base sent to another valid
    base, and the dict is its own inverse.  Every other selector fails the
    call with a [ValueError] whose message names the two legal selectors. *)
Theorem get_valid_bases_correct :
  get_valid_bases (Some (PyStr "bases_only")) =
    Return (BasesList ["A"; "G"; "C"; "T"]) ∧
  (∃ d : gmap string string,
     get_valid_bases (Some (PyStr "base_complements")) = Return (BasesDict d) ∧
     d = {[ "A" := "T"; "G" := "C"; "C" := "G"; "T" := "A" ]} ∧
     size d = 4%nat ∧
     dom d = list_to_set ["A"; "G"; "C"; "T"] ∧
     ∀ k v : string,
       d !! k = Some v → v ∈ ["A"; "G"; "C"; "T"] ∧ v ≠ k ∧ d !! v = Some k) ∧
  (∀ v : pyvalue,
     v ≠ PyStr "bases_only" →
     v ≠ PyStr "base_complements" →
     get_valid_bases (Some v) =
     Raise (RaiseValueError
              "return_values must be either 'bases_only' or 'base_complements'")) ∧
  class_of (RaiseValueError
              "return_values must be either 'bases_only' or 'base_complements'") =
    ValueError.
Proof.
  split; [reflexivity|]. split; [|split; [|reflexivity]].
  - eexists. split; [reflexivity|].
    assert (py_dict (zip ["A"; "G"; "C"; "T"] (reverse ["A"; "G"; "C"; "T"])) =
            {[ "A" := "T"; "G" := "C"; "C" := "G"; "T" := "A" ]}) as ->.
    { apply map_eq. intros k. unfold py_dict. cbn.
      destruct (decide (k = "T")) as [->|?]; [reflexivity|].
      destruct (decide (k = "C")) as [->|?]; [reflexivity|].
      destruct (decide (k = "G")) as [->|?]; [reflexivity|].
      destruct (decide (k = "A")) as [->|?]; [reflexivity|].
      by rewrite !lookup_insert_ne, lookup_singleton_ne, lookup_empty. }
    split; [reflexivity|]. split; [reflexivity|]. split.
    + apply set_eq. intros k. rewrite !dom_insert, dom_singleton. set_solver.
    + intros k v H.
      repeat (apply lookup_insert_Some in H as [[<- <-]|[_ H]]);
        [..|apply lookup_singleton_Some in H as [<- <-]];
        (split; [apply list_elem_of_In; cbn; tauto | split; [discriminate | reflexivity]]).
  - intros v Hlist Hdict. unfold get_valid_bases.
    destruct v as [| | |s|]; try reflexivity.
    cbn [from_option id py_eq_str].
    destruct (String.eqb_spec s "bases_only") as [->|_]; [done|].
    destruct (String.eqb_spec s "base_complements") as [->|_]; [done|].
    reflexivity.
Qed.

Lemma get_valid_bases_correct_witness :
  get_valid_bases (Some (PyStr "Whoops!")) =
    Raise (RaiseValueError
             "return_values must be either 'bases_only' or 'base_complements'") ∧
  get_valid_bases (Some (PyInt 0)) =
    Raise (RaiseValueError
             "return_values must be either 'bases_only' or 'base_complements'").
Proof.
  destruct get_valid_bases_correct as (_ & _ & Hother & _).
  split; apply Hother; discriminate.
Defined.

(** C4. For every valid sequence, applying [get_reverse_complement] to its
    own result returns the sequence in upper case. *)
Theorem get_reverse_complement_twice (s : string) :
  valid_sequence s = true →
  (let* once := get_reverse_complement (PyStr s) in
   get_reverse_complement (PyStr once)) = Return (upper s).
Proof.
  intros H. rewrite (get_reverse_complement_valid s H). cbn [bind].
  rewrite get_reverse_complement_valid by by apply reverse_complement_valid.
  by rewrite reverse_complement_twice.
Qed.

Lemma get_reverse_complement_twice_witness :
  valid_sequence "gatTaca" = true ∧
  (let* once := get_reverse_complement (PyStr "gatTaca") in
   get_reverse_complement (PyStr once)) = Return "GATTACA".
Proof.
  split; [reflexivity|].
  exact (get_reverse_complement_twice "gatTaca" eq_refl).
Defined.

(** C5. The result of [get_reverse_complement] does not depend on letter
    case: two valid sequences that are equal once upper-cased have the same
    result; aGCt and AGCT both give AGCT. *)
Theorem get_reverse_complement_case_insensitive :
  (∀ s1 s2 : string,
     valid_sequence s1 = true →
     valid_sequence s2 = true →
     upper s1 = upper s2 →
     get_reverse_complement (PyStr s1) = get_reverse_complement (PyStr s2)) ∧
  get_reverse_complement (PyStr "aGCt") = get_reverse_complement (PyStr "AGCT") ∧
  get_reverse_complement (PyStr "AGCT") = Return "AGCT".
Proof.
  split; [|split; reflexivity].
  intros s1 s2 H1 H2 Hupper.
  rewrite !get_reverse_complement_valid by done.
  unfold reverse_complement, upper in *.
  by rewrite !string_map_rev, Hupper.
Qed.

Lemma get_reverse_complement_case_insensitive_witness :
  get_reverse_complement (PyStr "ttGaC") = get_reverse_complement (PyStr "TtgAc").
Proof.
  exact (proj1 get_reverse_complement_case_insensitive "ttGaC" "TtgAc"
               eq_refl eq_refl eq_refl).
Defined.

(** C6. For every valid sequence, the string [get_reverse_complement]
    returns is as long as the sequence, and each of its characters is one
    of the upper-case bases A, G, C, T. *)
Theorem get_reverse_complement_shape (s : string) :
  valid_sequence s = true →
  ∃ out : string,
    get_reverse_complement (PyStr s) = Return out ∧
    String.length out = String.length s ∧
    ∀ base : string, base ∈ chars out → base ∈ ["A"; "G"; "C"; "T"].
Proof.
  intros H. exists (reverse_complement s).
  split; [by apply get_reverse_complement_valid|]. split.
  - unfold reverse_complement, upper.
    by rewrite !length_string_map, length_rev.
  - unfold reverse_complement, upper. rewrite string_map_compose.
    assert (string_forall is_base (String.rev s) = true) as Hrev
      by by rewrite string_forall_rev.
    induction (String.rev s) as [|c t IH]; intros base Hin.
    + cbn in Hin. by apply elem_of_nil in Hin.
    + cbn [string_forall] in Hrev. apply andb_prop in Hrev as [Hc Ht].
      cbn [string_map chars] in Hin.
      apply elem_of_cons in Hin as [->|Hin]; [|by apply IH].
      by apply complement_upper_in_valid_bases.
Qed.

Lemma get_reverse_complement_shape_witness :
  ∃ out : string,
    get_reverse_complement (PyStr "cAtg") = Return out ∧
    String.length out = String.length "cAtg" ∧
    ∀ base : string, base ∈ chars out → base ∈ ["A"; "G"; "C"; "T"].
Proof. exact (get_reverse_complement_shape "cAtg" eq_refl). Defined.

(** C7. On an invalid input [get_reverse_complement] fails with the very
    failure of [validate_dna_sequence]: the type failure for a value that is
    no string, and for a string with an invalid base the failure that names
    its 1-based position in the sequence as given, not in the reversed one;
    no string is returned. *)
Theorem get_reverse_complement_failure :
  (∀ (v : pyvalue) (e : exn),
     validate_dna_sequence v = Raise e → get_reverse_complement v = Raise e) ∧
  (∀ v : pyvalue,
     valid_input v = false →
     ∃ e : exn,
       validate_dna_sequence v = Raise e ∧ get_reverse_complement v = Raise e) ∧
  (∀ v : pyvalue,
     type_name v ≠ "str" →
     get_reverse_complement v = Raise (type_error (type_name v))) ∧
  (∀ (pre post : string) (c : ascii),
     valid_sequence pre = true →
     is_base c = false →
     get_reverse_complement (PyStr (pre +:+ String c post)) =
     Raise (base_error c (Z.of_nat (String.length pre) + 1))) ∧
  get_reverse_complement (PyStr "AGCU") =
    Raise (RaiseDnaSequenceError "invalid base 'U' found at sequence position 4") ∧
  get_reverse_complement (PyStr "2GCT") =
    Raise (RaiseDnaSequenceError "invalid base '2' found at sequence position 1") ∧
  get_reverse_complement (PyInt 1234) =
    Raise (RaiseDnaSequenceError "invalid sequence type (int)").
Proof.
  split; [exact get_reverse_complement_raise|]. split; [|split; [|split]].
  - intros v Hv.
    destruct (validate_dna_sequence_total v) as [Hok|[message Hfail]].
    + apply validate_dna_sequence_return in Hok. congruence.
    + eexists. split; [exact Hfail|]. by apply get_reverse_complement_raise.
  - intros v Hv. by apply get_reverse_complement_raise, validate_dna_sequence_not_str.
  - intros pre post c Hpre Hc.
    by apply get_reverse_complement_raise, validate_dna_sequence_invalid.
  - repeat split; reflexivity.
Qed.

Lemma get_reverse_complement_failure_witness :
  get_reverse_complement (PyStr "gaXtc") =
    Raise (RaiseDnaSequenceError "invalid base 'X' found at sequence position 3") ∧
  get_reverse_complement PyNone =
    Raise (RaiseDnaSequenceError "invalid sequence type (NoneType)").
Proof.
  destruct get_reverse_complement_failure as (Hsame & _ & Htype & Hbase & _).
  split.
  - exact (Hbase "ga" "tc" "X"%char eq_refl eq_refl).
  - apply (Htype PyNone). discriminate.
Defined.

(** C8, as the code has it.  The type failure and the base failure are
    both [DnaSequenceError], which derives from the module's [Error]: every
    failure of [validate_dna_sequence] and of [get_reverse_complement]
    belongs to [Error].  The failure of [get_valid_bases] is the built-in
    [ValueError], which does not derive from [Error]. *)
Theorem failure_classes :
  (∀ (v : pyvalue) (e : exn),
     validate_dna_sequence v = Raise e →
     class_of e = DnaSequenceError ∧ subclass (class_of e) Error) ∧
  (∀ (v : pyvalue) (e : exn),
     get_reverse_complement v = Raise e →
     class_of e = DnaSequenceError ∧ subclass (class_of e) Error) ∧
  (∀ (arg : option pyvalue) (e : exn),
     get_valid_bases arg = Raise e →
     class_of e = ValueError ∧ ¬ subclass (class_of e) Error).
Proof.
  assert (∀ e, class_of e = DnaSequenceError →
               class_of e = DnaSequenceError ∧ subclass (class_of e) Error) as Hsub.
  { intros e ->. split; [reflexivity|]. by apply issubclass_subclass. }
  split; [|split].
  - intros v e H. apply Hsub.
    destruct (validate_dna_sequence_total v) as [Hok|[message Hfail]];
      [congruence|].
    rewrite Hfail in H. by injection H as <-.
  - intros v e H. apply Hsub.
    destruct (validate_dna_sequence_total v) as [Hok|[message Hfail]].
    + apply validate_dna_sequence_return in Hok.
      destruct v as [| | |s|]; try discriminate Hok.
      rewrite (get_reverse_complement_valid s Hok) in H. discriminate H.
    + apply get_reverse_complement_raise in Hfail.
      rewrite Hfail in H. by injection H as <-.
  - intros arg e H. unfold get_valid_bases in H.
    destruct (py_eq_str _ "bases_only"); [discriminate H|].
    destruct (py_eq_str _ "base_complements"); [discriminate H|].
    injection H as <-. split; [reflexivity|].
    intros Hsubclass%subclass_issubclass. discriminate Hsubclass.
Qed.

Lemma failure_classes_witness :
  class_of (RaiseDnaSequenceError "invalid sequence type (int)") = DnaSequenceError ∧
  class_of (RaiseDnaSequenceError "invalid base 'U' found at sequence position 4") =
    DnaSequenceError ∧
  class_of (RaiseValueError
              "return_values must be either 'bases_only' or 'base_complements'") =
    ValueError.
Proof.
  destruct failure_classes as (Hvalidate & Hreverse & Hbases).
  split; [|split].
  - exact (proj1 (Hvalidate (PyInt 1234) _ eq_refl)).
  - exact (proj1 (Hreverse (PyStr "AGCU") _ eq_refl)).
  - exact (proj1 (Hbases (Some (PyStr "Whoops!")) _ eq_refl)).
Defined.

(** C8, as stated, fails: the failure of [get_valid_bases] on an unknown
    selector is a [ValueError], and [ValueError] is no subclass of the
    module's [Error]. *)
Lemma get_valid_bases_failure_outside_Error :
  ∃ e : exn,
    get_valid_bases (Some (PyStr "Whoops!")) = Raise e ∧
    class_of e = ValueError ∧
    issubclass (class_of e) Error = false ∧
    ¬ subclass (class_of e) Error.
Proof.
  eexists. split; [reflexivity|]. split; [reflexivity|]. split; [reflexivity|].
  intros H%subclass_issubclass. discriminate H.
Qed.

(** C9. The empty string is a valid sequence: [validate_dna_sequence]
    returns on it, and [get_reverse_complement] returns the empty string. *)
Theorem empty_sequence_accepted :
  validate_dna_sequence (PyStr "") = Return tt ∧
  get_reverse_complement (PyStr "") = Return "".
Proof. split; reflexivity. Qed.

(** C10. [get_valid_bases] called without an argument takes the selector
    bases_only: it does what the call with that selector does, and returns
    the list A, G, C, T. *)
Theorem get_valid_bases_default :
  get_valid_bases None = get_valid_bases (Some (PyStr "bases_only")) ∧
  get_valid_bases None = Return (BasesList ["A"; "G"; "C"; "T"]).
Proof. split; reflexivity. Qed.

(** ** Further facts about strings and the scan *)

Lemma app_assoc_string (s t u : string) : (s +:+ t) +:+ u = s +:+ t +:+ u.
Proof. induction s as [|c s IH]; [reflexivity|]. by rewrite !app_cons, IH. Qed.

Lemma length_app_string (s t : string) :
  String.length (s +:+ t) = (String.length s + String.length t)%nat.
Proof. induction s as [|c s IH]; [reflexivity|]. rewrite app_cons. cbn. by rewrite IH. Qed.

Lemma string_forall_app (p : ascii → bool) (s t : string) :
  string_forall p (s +:+ t) = string_forall p s && string_forall p t.
Proof.
  induction s as [|c s IH]; [reflexivity|].
  rewrite app_cons. cbn. rewrite IH. by rewrite andb_assoc.
Qed.

Lemma string_map_app (f : ascii → ascii) (s t : string) :
  string_map f (s +:+ t) = string_map f s +:+ string_map f t.
Proof. induction s as [|c s IH]; [reflexivity|]. rewrite app_cons. cbn. by rewrite IH. Qed.

Lemma rev_app_app (s t u : string) :
  String.rev_app s (t +:+ u) = String.rev_app s t +:+ u.
Proof.
  revert t. induction s as [|c s IH]; intros t; [reflexivity|].
  cbn. by rewrite <- IH.
Qed.

Lemma rev_app_append (s t u : string) :
  String.rev_app (s +:+ t) u = String.rev_app t (String.rev_app s u).
Proof.
  revert u. induction s as [|c s IH]; intros u; [reflexivity|].
  rewrite app_cons. cbn. by rewrite IH.
Qed.

Lemma rev_append (s t : string) :
  String.rev (s +:+ t) = String.rev t +:+ String.rev s.
Proof.
  unfold String.rev. rewrite rev_app_append.
  by rewrite <- rev_app_app.
Qed.

Lemma string_count_rev_app (p : ascii → bool) (s t : string) :
  string_count p (String.rev_app s t) = (string_count p s + string_count p t)%nat.
Proof.
  revert t. induction s as [|c s IH]; intros t; [reflexivity|].
  cbn. rewrite IH. cbn. lia.
Qed.

Lemma string_count_rev (p : ascii → bool) (s : string) :
  string_count p (String.rev s) = string_count p s.
Proof. unfold String.rev. rewrite string_count_rev_app. cbn. lia. Qed.

Lemma string_count_map (p : ascii → bool) (f : ascii → ascii) (s : string) :
  string_count p (string_map f s) = string_count (λ c, p (f c)) s.
Proof. induction s as [|c s IH]; cbn; [reflexivity | by rewrite IH]. Qed.

Lemma string_count_ext_forall (q p p' : ascii → bool) (s : string) :
  (∀ c, q c = true → p c = p' c) →
  string_forall q s = true → string_count p s = string_count p' s.
Proof.
  intros Hpp. induction s as [|c s IH]; cbn; [reflexivity|].
  intros [Hc Hs]%andb_prop. by rewrite (Hpp c Hc), IH.
Qed.

Lemma first_invalid_Some (s : string) (position i : Z) (c : ascii) :
  first_invalid s position = Some (c, i) →
  ∃ pre post : string,
    s = pre +:+ String c post ∧
    valid_sequence pre = true ∧
    is_base c = false ∧
    i = position + Z.of_nat (String.length pre).
Proof.
  revert position. induction s as [|b s IH]; intros position; [discriminate|].
  cbn [first_invalid]. destruct (is_base b) eqn:Hb.
  - intros (pre & post & -> & Hpre & Hc & ->)%IH.
    exists (String b pre), post. repeat split; [|done|].
    + unfold valid_sequence in *. cbn [string_forall]. by rewrite Hb.
    + cbn [String.length]. lia.
  - intros [= <- <-]. exists "", s. repeat split; [done|]. cbn. lia.
Qed.

Lemma first_invalid_append (s t : string) (position : Z) :
  first_invalid (s +:+ t) position =
  match first_invalid s position with
  | Some found => Some found
  | None => first_invalid t (position + Z.of_nat (String.length s))
  end.
Proof.
  revert position. induction s as [|b s IH]; intros position.
  - change ("" +:+ t) with t. cbn. by rewrite Z.add_0_r.
  - rewrite app_cons. cbn [first_invalid]. destruct (is_base b); [|done].
    rewrite IH. destruct (first_invalid s (position + 1)); [done|].
    f_equal. cbn [String.length]. lia.
Qed.

Lemma first_invalid_shift (s : string) (position k : Z) :
  first_invalid s (position + k) =
  match first_invalid s position with
  | Some (c, i) => Some (c, i + k)
  | None => None
  end.
Proof.
  revert position. induction s as [|b s IH]; intros position; [done|].
  cbn [first_invalid]. destruct (is_base b); [|done].
  replace (position + k + 1) with (position + 1 + k) by lia. apply IH.
Qed.

(** ** Failure messages *)

Lemma py_str_of_int_inj (z z' : Z) : py_str_of_int z = py_str_of_int z' → z = z'.
Proof.
  unfold py_str_of_int. intros H.
  assert (∀ n, Z.to_int n ≠ Decimal.Pos Decimal.Nil ∧
               Z.to_int n ≠ Decimal.Neg Decimal.Nil) as Hnonnil.
  { intros [|p|p]; cbn; (split; [|try discriminate]); try discriminate;
      intros [= Hp]; by apply DecimalPos.Unsigned.to_uint_nonnil in Hp. }
  apply (f_equal NilZero.int_of_string) in H.
  rewrite !NilZero.isi in H by apply Hnonnil.
  injection H as H. by apply DecimalZ.to_int_inj.
Qed.

Lemma base_error_inj (c c' : ascii) (position position' : Z) :
  base_error c position = base_error c' position' → c = c' ∧ position = position'.
Proof.
  unfold base_error. intros [= Hc Hposition].
  split; [done|]. by apply py_str_of_int_inj.
Qed.

Lemma py_in_upper_string (s : string) :
  py_in (upper s) (BasesList ["A"; "G"; "C"; "T"]) = single_base s.
Proof.
  destruct s as [|c [|d rest]]; [reflexivity | apply py_in_upper_char |].
  cbn [single_base upper string_map py_in existsb String.eqb].
  repeat (destruct (Ascii.eqb _ _)); reflexivity.
Qed.

Lemma _validate_base_str (s : string) (position : Z) :
  _validate_base (PyStr s) position =
  if single_base s then Return tt
  else Raise (RaiseDnaSequenceError
                ("invalid base '" +:+ s +:+ "' found at sequence position " +:+
                 py_str_of_int position)).
Proof.
  unfold _validate_base, py_upper, get_valid_bases, bind.
  cbn [from_option id py_eq_str].
  change (String.eqb "bases_only" "bases_only") with true. cbv iota.
  rewrite py_in_upper_string. destruct (single_base s); [reflexivity|].
  cbn [negb py_str_add]. by rewrite !app_assoc_string.
Qed.

Lemma complement_count (b b' c : ascii) :
  (b = "A" ∧ b' = "T" ∨ b = "T" ∧ b' = "A" ∨
   b = "G" ∧ b' = "C" ∨ b = "C" ∧ b' = "G")%char →
  is_base c = true →
  Ascii.eqb (upper_char (complement (upper_char c))) b = Ascii.eqb (upper_char c) b'.
Proof.
  intros [[-> ->]|[[-> ->]|[[-> ->]|[-> ->]]]]; by_cases_on_char c.
Qed.

(** ** Further properties of the module *)

(** X1. [_validate_base] returns on exactly eight strings: the one-character
    strings A, G, C, T in either case.  Every other string, the empty one
    and the longer ones included, fails with the message that quotes the
    string whole and gives the position as passed; [None], a bool, an int
    or a list has no [upper] method and fails in that call, with an
    [AttributeError]. *)
Theorem _validate_base_accepts :
  (∀ (s : string) (position : Z),
     _validate_base (PyStr s) position = Return tt ↔
     ∃ c : ascii, s = String c "" ∧ is_base c = true) ∧
  (∀ (s : string) (position : Z),
     single_base s = false →
     _validate_base (PyStr s) position =
     Raise (RaiseDnaSequenceError
              ("invalid base '" +:+ s +:+ "' found at sequence position " +:+
               py_str_of_int position))) ∧
  (∀ (v : pyvalue) (position : Z),
     type_name v ∈ ["NoneType"; "bool"; "int"; "list"] →
     _validate_base v position = Raise RaiseAttributeError).
Proof.
  split; [|split].
  - intros s position. rewrite _validate_base_str.
    destruct (single_base s) eqn:Hs; split.
    + intros _. destruct s as [|c [|d rest]]; try discriminate Hs. by exists c.
    + done.
    + discriminate.
    + intros (c & -> & Hc). cbn in Hs. congruence.
  - intros s position Hs. by rewrite _validate_base_str, Hs.
  - intros v position Hv. destruct v; try reflexivity.
    apply list_elem_of_In in Hv. cbn in Hv.
    repeat (destruct Hv as [Hv|Hv]; [discriminate Hv|]). destruct Hv.
Qed.

Lemma _validate_base_accepts_witness :
  _validate_base (PyStr "") 1 =
    Raise (RaiseDnaSequenceError "invalid base '' found at sequence position 1") ∧
  _validate_base (PyStr "AG") 7 =
    Raise (RaiseDnaSequenceError "invalid base 'AG' found at sequence position 7") ∧
  _validate_base (PyInt 5) 1 = Raise RaiseAttributeError.
Proof.
  destruct _validate_base_accepts as (_ & Hreject & Hother).
  split; [|split].
  - exact (Hreject "" 1 eq_refl).
  - exact (Hreject "AG" 7 eq_refl).
  - apply (Hother (PyInt 5) 1). apply list_elem_of_In. cbn. tauto.
Defined.

(** X2. The message of a base failure tells the character and the position:
    two calls of [_validate_base] on single characters that fail with the
    same exception were given the same character and the same position. *)
Theorem _validate_base_message_injective
    (c c' : ascii) (position position' : Z) (e : exn) :
  _validate_base (PyStr (String c "")) position = Raise e →
  _validate_base (PyStr (String c' "")) position' = Raise e →
  c = c' ∧ position = position'.
Proof.
  rewrite !_validate_base_char.
  destruct (is_base c); [discriminate|]. destruct (is_base c'); [discriminate|].
  intros H H'. apply base_error_inj. congruence.
Qed.

Lemma _validate_base_message_injective_witness :
  ("U" = "U")%char ∧ 4 = 4.
Proof.
  exact (_validate_base_message_injective "U" "U" 4 4 _ eq_refl eq_refl).
Defined.

(** X3. When [validate_dna_sequence] fails on a string, the failure points
    into the string: the reported position lies between 1 and the length,
    the character at that position is the reported one and is no base, and
    every character before it is a base. *)
Theorem validate_dna_sequence_failure_located (s : string) (e : exn) :
  validate_dna_sequence (PyStr s) = Raise e →
  ∃ (pre post : string) (c : ascii),
    s = pre +:+ String c post ∧
    valid_sequence pre = true ∧
    is_base c = false ∧
    e = base_error c (Z.of_nat (String.length pre) + 1) ∧
    1 ≤ Z.of_nat (String.length pre) + 1 ≤ Z.of_nat (String.length s).
Proof.
  rewrite validate_dna_sequence_str. unfold validation_outcome.
  destruct (first_invalid s 1) as [[c i]|] eqn:Hscan; [|discriminate].
  intros [= <-].
  apply first_invalid_Some in Hscan as (pre & post & -> & Hpre & Hc & ->).
  exists pre, post, c. repeat split; try done.
  - by rewrite Z.add_comm.
  - lia.
  - rewrite length_app_string. cbn [String.length]. lia.
Qed.

Lemma validate_dna_sequence_failure_located_witness :
  ∃ (pre post : string) (c : ascii),
    "acGTnA?" = pre +:+ String c post ∧
    valid_sequence pre = true ∧
    is_base c = false ∧
    RaiseDnaSequenceError "invalid base 'n' found at sequence position 5" =
      base_error c (Z.of_nat (String.length pre) + 1) ∧
    1 ≤ Z.of_nat (String.length pre) + 1 ≤ Z.of_nat (String.length "acGTnA?").
Proof. exact (validate_dna_sequence_failure_located "acGTnA?" _ eq_refl). Defined.

(** X4. Validation of a concatenation: [s1 + s2] is accepted exactly when
    both parts are; a failure of [s1] is the failure of [s1 + s2]; and when
    [s1] is accepted and [s2] fails at position [i], [s1 + s2] fails with
    the same character at position [len(s1) + i]. *)
Theorem validate_dna_sequence_append (s1 s2 : string) :
  (validate_dna_sequence (PyStr (s1 +:+ s2)) = Return tt ↔
   validate_dna_sequence (PyStr s1) = Return tt ∧
   validate_dna_sequence (PyStr s2) = Return tt) ∧
  (∀ e : exn,
     validate_dna_sequence (PyStr s1) = Raise e →
     validate_dna_sequence (PyStr (s1 +:+ s2)) = Raise e) ∧
  (∀ (c : ascii) (i : Z),
     validate_dna_sequence (PyStr s1) = Return tt →
     validate_dna_sequence (PyStr s2) = Raise (base_error c i) →
     validate_dna_sequence (PyStr (s1 +:+ s2)) =
     Raise (base_error c (Z.of_nat (String.length s1) + i))).
Proof.
  split; [|split].
  - rewrite !validate_dna_sequence_valid. unfold valid_sequence.
    rewrite string_forall_app. apply andb_true_iff.
  - intros e. rewrite !validate_dna_sequence_str. unfold validation_outcome.
    rewrite first_invalid_append.
    by destruct (first_invalid s1 1) as [[c i]|].
  - intros c i H1 H2. revert H1 H2.
    rewrite !validate_dna_sequence_str. unfold validation_outcome.
    rewrite first_invalid_append.
    destruct (first_invalid s1 1) as [[c1 i1]|]; [discriminate|]. intros _.
    rewrite first_invalid_shift.
    destruct (first_invalid s2 1) as [[c2 i2]|]; [|discriminate].
    intros H. assert (base_error c2 i2 = base_error c i) as Hsame by congruence.
    apply base_error_inj in Hsame as [-> ->].
    by rewrite Z.add_comm.
Qed.

Lemma validate_dna_sequence_append_witness :
  validate_dna_sequence (PyStr ("acgt" +:+ "gaNt")) =
    Raise (RaiseDnaSequenceError "invalid base 'N' found at sequence position 7") ∧
  validate_dna_sequence (PyStr ("a-c" +:+ "??")) =
    Raise (RaiseDnaSequenceError "invalid base '-' found at sequence position 2").
Proof.
  destruct (validate_dna_sequence_append "acgt" "gaNt") as (_ & _ & Hright).
  destruct (validate_dna_sequence_append "a-c" "??") as (_ & Hleft & _).
  split.
  - exact (Hright "N"%char 3 eq_refl eq_refl).
  - exact (Hleft _ eq_refl).
Defined.

(** X5. On valid sequences [get_reverse_complement] turns a concatenation
    around: the result for [s1 + s2] is the result for [s2] followed by the
    result for [s1]. *)
Theorem get_reverse_complement_append (s1 s2 : string) :
  valid_sequence s1 = true →
  valid_sequence s2 = true →
  get_reverse_complement (PyStr (s1 +:+ s2)) =
  (let* out1 := get_reverse_complement (PyStr s1) in
   let* out2 := get_reverse_complement (PyStr s2) in
   Return (out2 +:+ out1)).
Proof.
  intros H1 H2.
  rewrite !get_reverse_complement_valid; try done.
  - cbn [bind]. unfold reverse_complement, upper.
    by rewrite rev_append, !string_map_app.
  - unfold valid_sequence in *. by rewrite string_forall_app, H1, H2.
Qed.

Lemma get_reverse_complement_append_witness :
  get_reverse_complement (PyStr ("aac" +:+ "Gt")) = Return ("AC" +:+ "GTT").
Proof. exact (get_reverse_complement_append "aac" "Gt" eq_refl eq_refl). Defined.

(** X6. What [get_reverse_complement] returns for a valid sequence passes
    [validate_dna_sequence]. *)
Theorem get_reverse_complement_output_valid (s : string) :
  valid_sequence s = true →
  (let* out := get_reverse_complement (PyStr s) in
   validate_dna_sequence (PyStr out)) = Return tt.
Proof.
  intros H. rewrite (get_reverse_complement_valid s H). cbn [bind].
  by apply validate_dna_sequence_valid, reverse_complement_valid.
Qed.

Lemma get_reverse_complement_output_valid_witness :
  (let* out := get_reverse_complement (PyStr "ctTga") in
   validate_dna_sequence (PyStr out)) = Return tt.
Proof. exact (get_reverse_complement_output_valid "ctTga" eq_refl). Defined.

(** X7. [get_reverse_complement] loses nothing but letter case: two valid
    sequences with the same result are equal once upper-cased. *)
Theorem get_reverse_complement_injective (s1 s2 : string) :
  valid_sequence s1 = true →
  valid_sequence s2 = true →
  get_reverse_complement (PyStr s1) = get_reverse_complement (PyStr s2) →
  upper s1 = upper s2.
Proof.
  intros H1 H2. rewrite !get_reverse_complement_valid by done.
  intros [= H].
  rewrite <- (reverse_complement_twice s1 H1), <- (reverse_complement_twice s2 H2).
  by rewrite H.
Qed.

Lemma get_reverse_complement_injective_witness : upper "gAt" = upper "GaT".
Proof.
  exact (get_reverse_complement_injective "gAt" "GaT" eq_refl eq_refl eq_refl).
Defined.

(** X8. On a valid sequence, reversing the input reverses the result:
    [get_reverse_complement(s[::-1])] is [get_reverse_complement(s)[::-1]],
    the sequence complemented base by base in its own order. *)
Theorem get_reverse_complement_reversed (s : string) :
  valid_sequence s = true →
  get_reverse_complement (PyStr (String.rev s)) =
    (let* out := get_reverse_complement (PyStr s) in Return (String.rev out)) ∧
  get_reverse_complement (PyStr (String.rev s)) =
    Return (string_map complement (upper s)).
Proof.
  intros H.
  assert (valid_sequence (String.rev s) = true) as Hrev
    by (unfold valid_sequence; by rewrite string_forall_rev).
  rewrite !get_reverse_complement_valid by done. cbn [bind].
  unfold reverse_complement, upper.
  by rewrite !string_map_rev, !rev_involutive.
Qed.

Lemma get_reverse_complement_reversed_witness :
  get_reverse_complement (PyStr (String.rev "aacG")) =
    (let* out := get_reverse_complement (PyStr "aacG") in Return (String.rev out)) ∧
  get_reverse_complement (PyStr (String.rev "aacG")) = Return "TTGC".
Proof. exact (get_reverse_complement_reversed "aacG" eq_refl). Defined.

(** X9. Base composition: in the result for a valid sequence there are as
    many A as the sequence has T (in either case), as many T as it has A,
    as many G as it has C and as many C as it has G. *)
Theorem get_reverse_complement_base_counts (s : string) :
  valid_sequence s = true →
  ∃ out : string,
    get_reverse_complement (PyStr s) = Return out ∧
    base_count "A" out = base_count "T" s ∧
    base_count "T" out = base_count "A" s ∧
    base_count "G" out = base_count "C" s ∧
    base_count "C" out = base_count "G" s.
Proof.
  intros H. exists (reverse_complement s).
  split; [by apply get_reverse_complement_valid|].
  assert (∀ b b' : ascii,
            (b = "A" ∧ b' = "T" ∨ b = "T" ∧ b' = "A" ∨
             b = "G" ∧ b' = "C" ∨ b = "C" ∧ b' = "G")%char →
            base_count b (reverse_complement s) = base_count b' s) as Hcount.
  { intros b b' Hb. unfold base_count, reverse_complement, upper.
    rewrite !string_map_rev, string_count_rev, !string_count_map.
    apply (string_count_ext_forall is_base); [|done].
    intros c Hc. by apply complement_count. }
  repeat split; apply Hcount; tauto.
Qed.

Lemma get_reverse_complement_base_counts_witness :
  ∃ out : string,
    get_reverse_complement (PyStr "aaTgcCc") = Return out ∧
    base_count "A" out = base_count "T" "aaTgcCc" ∧
    base_count "T" out = base_count "A" "aaTgcCc" ∧
    base_count "G" out = base_count "C" "aaTgcCc" ∧
    base_count "C" out = base_count "G" "aaTgcCc".
Proof. exact (get_reverse_complement_base_counts "aaTgcCc" eq_refl). Defined.
